(** * TileLang: kernel launch scope, target resolver, tensor generator and
    the matmul tuning space.

    A shallow embedding of
      - [tilelang/language/kernel.py]   (module [KernelLang]),
      - [tilelang/utils/target.py]      (module [TargetUtil]),
      - [tilelang/utils/tensor.py]      (module [TensorUtil]),
      - [benchmark/benchmark_matmul.py] (module [MatmulBench]),
    followed by the properties established about them.

    Python exceptions are values of a per-module exception type carried by
    [result]; the process-wide frame stack is threaded explicitly through a
    small state-and-exception monad. *)

From Stdlib Require Import ZArith QArith Qcanon Lia.
From stdpp Require Import base decidable option list strings gmap.

Local Open Scope string_scope.
Local Open Scope list_scope.

(** ** Outcomes of Python calls *)

Inductive result (E A : Type) : Type :=
| Ok (a : A)
| Raise (e : E).
Arguments Ok {E A} a.
Arguments Raise {E A} e.

Definition result_map {E A B} (f : A -> B) (r : result E A) : result E B :=
  match r with
  | Ok a => Ok (f a)
  | Raise e => Raise e
  end.

Definition succeeds {E A} (r : result E A) : Prop := exists a, r = Ok a.

(** ** tilelang/language/kernel.py *)
Module KernelLang.

(** Exceptions raised by this module. *)
Inductive exn : Type :=
| IndexError (msg : string)
| ValueError (msg : string).

#[global] Instance exn_eq_dec : EqDecision exn.
Proof. solve_decision. Defined.

(** [tir.Var]: an opaque variable of the external compiler, known by name. *)
Record Var : Type := mkVar { var_name : string }.

#[global] Instance Var_eq_dec : EqDecision Var.
Proof. solve_decision. Defined.

(** [tir.IterVar]: the fields read by this module, [iter_var.var] and
    [iter_var.dom.extent]. *)
Record IterVar : Type := mkIterVar { var : Var; dom_extent : Z }.

(** One element of [KernelLaunchFrame.frames] with its [iter_var].  The
    frames of a launch end with an auxiliary frame that only counts towards
    the number of frames; nothing stated below reads its [iter_var]. *)
Record Frame : Type := mkFrame { iter_var : IterVar }.

(** A [KernelLaunchFrame] object.  [obj_id] is the identity of the Python
    object: the [is] operator compares it and nothing else. *)
Record KernelLaunchFrame : Type :=
  mkKernelLaunchFrame { obj_id : nat; frames : list Frame }.

Definition py_is (a b : KernelLaunchFrame) : bool :=
  bool_decide (obj_id a = obj_id b).

(** *** class FrameStack

    The [deque] is a list whose right end is the top: [append] adds on the
    right, [pop] and [[-1]] work on the right. *)
Definition FrameStack : Type := list KernelLaunchFrame.

(** The module-level [_kernel_launch_frame_stack = FrameStack()]. *)
Definition initial_stack : FrameStack := [].

(** Computations over the process-wide stack that may raise.  A raised
    exception leaves the stack as it was at the point of the raise. *)
Definition M (A : Type) : Type := FrameStack -> result exn A * FrameStack.

Definition ret {A} (a : A) : M A := fun st => (Ok a, st).

Definition raise {A} (e : exn) : M A := fun st => (Raise e, st).

Definition bind {A B} (m : M A) (k : A -> M B) : M B := fun st =>
  match m st with
  | (Ok a, st') => k a st'
  | (Raise e, st') => (Raise e, st')
  end.

Notation "'do' x <- m ; k" := (bind m (fun x => k))
  (at level 10, x name, m at level 100, k at level 200).
Notation "m >>; k" := (bind m (fun _ => k))
  (at level 90, right associativity).

Definition outcome {A} (r : result exn A * FrameStack) : result exn A := fst r.
Definition stack_after {A} (r : result exn A * FrameStack) : FrameStack := snd r.

(** [f"{self.__class__.__name__} is empty"] *)
Definition empty_msg : string := "FrameStack is empty".

(** [FrameStack.push] *)
Definition push (item : KernelLaunchFrame) : M unit := fun st =>
  (Ok tt, st ++ [item]).

(** [FrameStack.pop] *)
Definition pop : M KernelLaunchFrame := fun st =>
  match last st with
  | Some item => (Ok item, removelast st)
  | None => (Raise (IndexError empty_msg), st)
  end.

(** [FrameStack.top] *)
Definition top : M KernelLaunchFrame := fun st =>
  match last st with
  | Some item => (Ok item, st)
  | None => (Raise (IndexError empty_msg), st)
  end.

(** [FrameStack.__len__] *)
Definition len (st : FrameStack) : nat := length st.

(** [FrameStack.__bool__] *)
Definition truthy (st : FrameStack) : bool :=
  match st with
  | [] => false
  | _ :: _ => true
  end.

(** *** class KernelLaunchFrame *)

(** [TIRFrame.__enter__] and [TIRFrame.__exit__] belong to the external
    compiler; they act on its IR builder and not on the frame stack. *)
Definition super_enter (self : KernelLaunchFrame) : M unit := ret tt.
Definition super_exit (self : KernelLaunchFrame) : M unit := ret tt.

Definition frame_var (f : Frame) : Var := var (iter_var f).

(** The slice [l[0:-k]]. *)
Definition slice_to_neg {A} (k : nat) (l : list A) : list A :=
  take (length l - k) l.

(** The slice [l[-k:]]. *)
Definition slice_from_neg {A} (k : nat) (l : list A) : list A :=
  drop (length l - k) l.

(** [Union[Var, List[Var]]] *)
Inductive EnterResult : Type :=
| SingleVar (v : Var)
| VarList (vs : list Var).

(** [KernelLaunchFrame.__enter__] *)
Definition enter (self : KernelLaunchFrame) : M EnterResult :=
  super_enter self >>;
  push self >>;
  if bool_decide (length (frames self) = 5%nat) then
    match frames self !! 0%nat with
    | Some f => ret (SingleVar (frame_var f))
    | None => raise (IndexError "list index out of range")
    end
  else
    ret (VarList (map frame_var (slice_to_neg 4 (frames self)))).

(** [KernelLaunchFrame.__exit__] *)
Definition exit (self : KernelLaunchFrame) : M unit :=
  do t <- top;
  (if py_is t self then (pop >>; ret tt) else ret tt) >>;
  super_exit self.

(** [KernelLaunchFrame.Current] *)
Definition Current : M KernelLaunchFrame := top.

(** [seq[i]] for an integer index: a negative [i] counts from the end, and
    an index outside [-len, len) raises [IndexError]. *)
Definition getitem {A} (l : list A) (i : Z) : result exn A :=
  let n := Z.of_nat (length l) in
  if bool_decide (i < - n \/ n <= i)%Z then
    Raise (IndexError "index out of range")
  else
    let j := if bool_decide (i < 0)%Z then (i + n)%Z else i in
    match l !! Z.to_nat j with
    | Some x => Ok x
    | None => Raise (IndexError "index out of range")
    end.

Definition frame_extent (f : Frame) : Z := dom_extent (iter_var f).

(** [KernelLaunchFrame.get_block_extent] *)
Definition get_block_extent (self : KernelLaunchFrame) (dim : Z)
  : result exn Z :=
  result_map frame_extent (getitem (frames self) dim).

(** [KernelLaunchFrame.get_thread_extent] *)
Definition get_thread_extent (self : KernelLaunchFrame) (dim : Z)
  : result exn Z :=
  result_map frame_extent (getitem (frames self) (-4 + dim)).

(** [KernelLaunchFrame.get_num_threads]: the loop over [range(3)]. *)
Definition get_num_threads (self : KernelLaunchFrame) : result exn Z :=
  foldl (fun acc thread_dim =>
           match acc with
           | Raise e => Raise e
           | Ok num_threads =>
               result_map (Z.mul num_threads)
                 (get_thread_extent self thread_dim)
           end)
        (Ok 1%Z) [0; 1; 2]%Z.

(** [KernelLaunchFrame.blocks] *)
Definition blocks (self : KernelLaunchFrame) : list Var :=
  map frame_var (slice_to_neg 4 (frames self)).

(** *** def Kernel *)

(** The values the [threads] parameter can hold, by the [isinstance]
    tests of the function: an [int], a [list], a [tuple], or a value of any
    other type (kept by the name of its type). *)
Inductive ThreadsArg : Type :=
| ThreadsInt (t : Z)
| ThreadsList (l : list Z)
| ThreadsTuple (l : list Z)
| ThreadsOther (type_name : string).

(** The arguments handed to the external [_ffi_api.KernelLaunch]. *)
Record KernelLaunchCall : Type := mkKernelLaunchCall {
  call_blocks : list Z;
  call_threads : list Z;
  call_attrs : gmap string string
}.

Definition threads_msg : string :=
  "threads must be an integer or a list of integers".

(** [[1] * n] for a possibly negative [n]. *)
Definition ones_times (n : Z) : list Z := replicate (Z.to_nat n) 1%Z.

Definition normalize_threads (threads : ThreadsArg) : result exn (list Z) :=
  match threads with
  | ThreadsInt t => Ok [t; 1%Z; 1%Z]
  | ThreadsList l => Ok (l ++ ones_times (3 - Z.of_nat (length l)))
  | ThreadsTuple l => Ok (l ++ ones_times (3 - Z.of_nat (length l)))
  | ThreadsOther _ => Raise (ValueError threads_msg)
  end.

Definition Kernel (blocks : list Z) (threads : ThreadsArg)
    (prelude : option string) : result exn KernelLaunchCall :=
  let attrs : gmap string string := ∅ in
  match normalize_threads threads with
  | Raise e => Raise e
  | Ok threads =>
      let attrs :=
        match prelude with
        | Some p => <["pragma_import_c" := p]> attrs
        | None => attrs
        end in
      Ok (mkKernelLaunchCall blocks threads attrs)
  end.

(** *** Sequences of scope entries and exits *)

Inductive event : Type :=
| Enter (s : KernelLaunchFrame)
| Exit (s : KernelLaunchFrame).

Definition step (e : event) : M unit :=
  match e with
  | Enter s => enter s >>; ret tt
  | Exit s => exit s
  end.

Fixpoint run (t : list event) : M unit :=
  match t with
  | [] => ret tt
  | e :: t' => step e >>; run t'
  end.

(** Properly nested sequences: every scope that is entered is exited after
    the scopes entered inside it. *)
Inductive nested : list event -> Prop :=
| nested_nil : nested []
| nested_scope s body rest :
    nested body -> nested rest ->
    nested (Enter s :: body ++ Exit s :: rest).

End KernelLang.

(** ** tilelang/utils/target.py *)
Module TargetUtil.

Inductive exn : Type :=
| ValueError (msg : string)
| AssertionError (msg : string).

#[global] Instance exn_eq_dec : EqDecision exn.
Proof. solve_decision. Defined.

(** [tvm.target.Target]: a descriptor validated by the external compiler,
    kept by its printed form. *)
Record Target : Type := mkTarget { target_str : string }.

#[global] Instance Target_eq_dec : EqDecision Target.
Proof. solve_decision. Defined.

(** The values [determine_target] can be called with: a string, a
    [Target] instance, or a value of another type (kept by its printed
    form).  Only a string compares equal to a string. *)
Inductive TargetArg : Type :=
| ArgStr (s : string)
| ArgTarget (t : Target)
| ArgOther (repr : string).

#[global] Instance TargetArg_eq_dec : EqDecision TargetArg.
Proof. solve_decision. Defined.

(** What the two external path lookups do on this machine:
    [Some path] when the lookup returns, [None] when it raises. *)
Record Env : Type := mkEnv {
  find_cuda_path : option string;
  find_rocm_path : option string
}.

(** [check_cuda_availability] *)
Definition check_cuda_availability (env : Env) : bool :=
  match find_cuda_path env with
  | Some _ => true
  | None => false
  end.

(** [check_hip_availability] *)
Definition check_hip_availability (env : Env) : bool :=
  match find_rocm_path env with
  | Some _ => true
  | None => false
  end.

(** [target == s] for a string literal [s]. *)
Definition eq_str (target : TargetArg) (s : string) : bool :=
  match target with
  | ArgStr s' => bool_decide (s' = s)
  | _ => false
  end.

(** [isinstance(target, Target)] *)
Definition isinstance_Target (target : TargetArg) : bool :=
  match target with
  | ArgTarget _ => true
  | _ => false
  end.

(** [target in l] for a list of string literals. *)
Definition in_strs (target : TargetArg) (l : list string) : bool :=
  existsb (eq_str target) l.

(** [str(target)] as used in the f-string. *)
Definition to_str (target : TargetArg) : string :=
  match target with
  | ArgStr s => s
  | ArgTarget t => target_str t
  | ArgOther r => r
  end.

Definition no_backend_msg : string :=
  "No CUDA or HIP available on this system.".

Definition unsupported_msg (target : TargetArg) : string :=
  String.append "Target " (String.append (to_str target) " is not supported").

(** [determine_target] *)
Definition determine_target (env : Env) (target : TargetArg)
  : result exn TargetArg :=
  if eq_str target "auto" then
    let is_cuda_available := check_cuda_availability env in
    let is_hip_available := check_hip_availability env in
    if is_cuda_available then Ok (ArgStr "cuda")
    else if is_hip_available then Ok (ArgStr "hip")
    else Raise (ValueError no_backend_msg)
  else
    if isinstance_Target target || in_strs target ["cuda"; "hip"]
    then Ok target
    else Raise (AssertionError (unsupported_msg target)).

End TargetUtil.

(** ** tilelang/utils/tensor.py

    The tensor runtime is external: what it answers to a request is a
    parameter of [get_tensor_supply]. *)
Module TensorUtil.

Local Open Scope Qc_scope.

(** [class TensorSupplyType(Enum)] *)
Inductive TensorSupplyType : Type :=
| Integer | Uniform | Normal | Randn | Zero | One.

#[global] Instance TensorSupplyType_eq_dec : EqDecision TensorSupplyType.
Proof. solve_decision. Defined.

(** The value passed as [supply_type]: a member of the enumeration, or
    any other value (kept by its printed form). *)
Inductive SupplyArg : Type :=
| Member (m : TensorSupplyType)
| NotMember (repr : string).

#[global] Instance SupplyArg_eq_dec : EqDecision SupplyArg.
Proof. solve_decision. Defined.

(** The element types of the tensor runtime. *)
Inductive dtype : Type :=
| int8 | uint8 | int16 | int32 | int64
| float16 | bfloat16 | float32 | float64 | bool_.

#[global] Instance dtype_eq_dec : EqDecision dtype.
Proof. solve_decision. Defined.

(** [NotImplementedError(supply_type)] is raised by [get_tensor] itself;
    [RuntimeRaised] stands for any exception raised inside a call to the
    tensor runtime. *)
Inductive exn : Type :=
| NotImplementedError (supply_type : SupplyArg)
| RuntimeRaised (what : string).

(** How the elements of a requested tensor are to be drawn: the call made
    to the tensor runtime. *)
Inductive Fill : Type :=
| ones
| zeros
| randint (low high : Z)
| empty_uniform_ (from to : Qc)
| empty_normal_ (mean std : Qc)
| randn_to.

(** A request to the tensor runtime: the fill, and the shape, device and
    element type the tensor is to have. *)
Record TensorGen : Type := mkTensorGen {
  gen_fill : Fill;
  gen_shape : list Z;
  gen_device : nat;
  gen_dtype : dtype
}.

(** A tensor as the runtime returns it: element type, shape, device, and
    the values of its elements in storage order. *)
Record Tensor : Type := mkTensor {
  t_dtype : dtype;
  t_shape : list Z;
  t_device : nat;
  t_data : list Qc
}.

(** The tensor runtime: for each request, the tensor it returns or the
    exception it raises. *)
Definition Runtime : Type := TensorGen -> result exn Tensor.

(** The [TensorType] argument: the fields read are [dtype] and [shape]. *)
Record TensorType : Type := mkTensorType {
  tt_dtype : dtype;
  tt_shape : list Z
}.

(** [supply_type in [TensorSupplyType.Uniform, TensorSupplyType.Normal]] *)
Definition in_uniform_normal (supply_type : SupplyArg) : bool :=
  bool_decide (supply_type = Member Uniform)
  || bool_decide (supply_type = Member Normal).

(** The branch [get_tensor] takes: the request it makes to the runtime, or
    the exception it raises without making one.  [device] is what
    [torch.cuda.current_device()] returns. *)
Definition tensor_request (supply_type : SupplyArg) (device : nat)
    (tensor : TensorType) : result exn TensorGen :=
  let dtype := tt_dtype tensor in
  let shape := tt_shape tensor in
  if bool_decide (dtype = int8) && in_uniform_normal supply_type then
    Ok (mkTensorGen ones shape device dtype)
  else if bool_decide (supply_type = Member Integer) then
    Ok (mkTensorGen (randint (-2) 3) shape device dtype)
  else if bool_decide (supply_type = Member Uniform) then
    Ok (mkTensorGen (empty_uniform_ (-1) 1) shape device dtype)
  else if bool_decide (supply_type = Member Normal) then
    Ok (mkTensorGen (empty_normal_ (-1) 1) shape device dtype)
  else if bool_decide (supply_type = Member Randn) then
    Ok (mkTensorGen randn_to shape device dtype)
  else if bool_decide (supply_type = Member Zero) then
    Ok (mkTensorGen zeros shape device dtype)
  else if bool_decide (supply_type = Member One) then
    Ok (mkTensorGen ones shape device dtype)
  else Raise (NotImplementedError supply_type).

(** [get_tensor_supply(supply_type)], applied to [tensor]: the outcome of
    the request, as the runtime [torch] answers it. *)
Definition get_tensor_supply (torch : Runtime) (supply_type : SupplyArg)
    (device : nat) (tensor : TensorType) : result exn Tensor :=
  match tensor_request supply_type device tensor with
  | Ok request => torch request
  | Raise e => Raise e
  end.


End TensorUtil.

(** ** benchmark/benchmark_matmul.py *)
Module MatmulBench.

Local Open Scope Z_scope.

Inductive exn : Type :=
| ImportError (module_name : string)
| ValueError (msg : string)
| IndexError (msg : string)
| ZeroDivisionError (msg : string).

#[global] Instance exn_eq_dec : EqDecision exn.
Proof. solve_decision. Defined.

(** One configuration dictionary, by its six keys. *)
Record Config : Type := mkConfig {
  block_M : Z;
  block_N : Z;
  block_K : Z;
  num_stages : Z;
  thread_num : Z;
  enable_rasteration : bool
}.

#[global] Instance Config_eq_dec : EqDecision Config.
Proof. solve_decision. Defined.

(** The plan classes of the external hint library. *)
Inductive PlanClass : Type :=
| NoRasterization
| Rasterization2DRow
| Rasterization2DColumn.

(** A Python object as far as [is] tells objects apart: a class itself, or
    one of its instances.  The name [NoRasterization] imported by
    [get_configs] is the class, [ClassObject NoRasterization]. *)
Inductive PlanRef : Type :=
| ClassObject (cls : PlanClass)
| InstanceOf (cls : PlanClass) (id : nat).

(** [plan is not NoRasterization] *)
Definition is_not_NoRasterization (plan : PlanRef) : bool :=
  match plan with
  | ClassObject NoRasterization => false
  | _ => true
  end.

(** A hint of the external search: the attributes read here. *)
Record Hint : Type := mkHint {
  block : list Z;
  warp : list Z;
  rstep : list Z;
  rasterization_plan : PlanRef
}.

(** What the optional dependency does: [None] when its import fails,
    otherwise what [get_roller_hints_from_func] returns for the problem
    ([None] or a list of hints). *)
Definition Roller : Type := option (Z -> Z -> Z -> option (list Hint)).

(** [x, y = l] *)
Definition unpack2 (l : list Z) : result exn (Z * Z) :=
  match l with
  | [x; y] => Ok (x, y)
  | _ :: _ :: _ :: _ => Raise (ValueError "too many values to unpack (expected 2)")
  | _ => Raise (ValueError "not enough values to unpack (expected 2)")
  end.

(** [l[0]] *)
Definition index0 (l : list Z) : result exn Z :=
  match l !! 0%nat with
  | Some x => Ok x
  | None => Raise (IndexError "list index out of range")
  end.

(** [a // b] on integers. *)
Definition floordiv (a b : Z) : result exn Z :=
  if bool_decide (b = 0) then
    Raise (ZeroDivisionError "integer division or modulo by zero")
  else Ok (a `div` b).

Definition rbind {A B} (r : result exn A) (k : A -> result exn B)
  : result exn B :=
  match r with
  | Ok a => k a
  | Raise e => Raise e
  end.

Notation "'let*' x := r 'in' k" := (rbind r (fun x => k))
  (at level 10, x name, r at level 100, k at level 200).

(** The body of the loop over [roller_hints]. *)
Definition config_of_hint (hint : Hint) : result exn Config :=
  let* hint_block := unpack2 (block hint) in
  let '(block_m, block_n) := hint_block in
  let* hint_warp := unpack2 (warp hint) in
  let '(warp_m, warp_n) := hint_warp in
  let* block_k := index0 (rstep hint) in
  let* q := floordiv (block_m * block_n) (warp_m * warp_n) in
  Ok {| block_M := block_m;
        block_N := block_n;
        block_K := block_k;
        num_stages := 0;
        thread_num := q * 32;
        enable_rasteration :=
          is_not_NoRasterization (rasterization_plan hint) |}.

(** The loop [for hint in roller_hints: ... configs.append(config)]. *)
Fixpoint configs_of_hints (roller_hints : list Hint)
  : result exn (list Config) :=
  match roller_hints with
  | [] => Ok []
  | hint :: rest =>
      let* config := config_of_hint hint in
      let* configs := configs_of_hints rest in
      Ok (config :: configs)
  end.

(** [itertools.product] of six lists: the last list varies fastest. *)
Definition itertools_product {A B C D E F}
    (la : list A) (lb : list B) (lc : list C)
    (ld : list D) (le : list E) (lf : list F)
  : list (A * B * C * D * E * F) :=
  a ← la; b ← lb; c ← lc; d ← ld; e ← le; f ← lf;
  [(a, b, c, d, e, f)].

Definition candidates_block_M : list Z := [64; 128; 256].
Definition candidates_block_N : list Z := [64; 128; 256].
Definition candidates_block_K : list Z := [32; 64].
Definition candidates_num_stages : list Z := [0; 1; 2; 3].
Definition candidates_thread_num : list Z := [128; 256].
Definition candidates_enable_rasterization : list bool := [true; false].

Definition no_hints_msg : string :=
  "No Roller Hints Found for TensorCore Scheduling".

(** [get_configs]; the printing of the derived configurations is left
    out. *)
Definition get_configs (roller : Roller) (M N K : Z) (with_roller : bool)
  : result exn (list Config) :=
  if with_roller then
    match roller with
    | None => Raise (ImportError "bitblas")
    | Some get_roller_hints =>
        match get_roller_hints M N K with
        | None => Raise (ValueError no_hints_msg)
        | Some roller_hints => configs_of_hints roller_hints
        end
    end
  else
    let _configs :=
      itertools_product candidates_block_M candidates_block_N
        candidates_block_K candidates_num_stages candidates_thread_num
        candidates_enable_rasterization in
    Ok (map (fun c =>
               match c with
               | (c0, c1, c2, c3, c4, c5) =>
                   {| block_M := c0; block_N := c1; block_K := c2;
                      num_stages := c3; thread_num := c4;
                      enable_rasteration := c5 |}
               end) _configs).

End MatmulBench.

(** * Notions used to state the properties *)

(** Sample launch scopes. *)
Module Samples.
Import KernelLang.

Definition frame_of (name : string) (extent : Z) : Frame :=
  mkFrame (mkIterVar (mkVar name) extent).

Definition trailing_frames (tx ty tz : Z) : list Frame :=
  [frame_of "tx" tx; frame_of "ty" ty; frame_of "tz" tz; frame_of "aux" 1%Z].

(** One block dimension: 5 frames. *)
Definition scope_A : KernelLaunchFrame :=
  {| obj_id := 1; frames := frame_of "bx" 8%Z :: trailing_frames 128 1 1 |}.

(** Two block dimensions: 6 frames. *)
Definition scope_B : KernelLaunchFrame :=
  {| obj_id := 2;
     frames := frame_of "by" 8%Z :: frame_of "bx" 4%Z
               :: trailing_frames 64 2 1 |}.

Definition cuda_and_hip : TargetUtil.Env :=
  TargetUtil.mkEnv (Some "/usr/local/cuda") (Some "/opt/rocm").
Definition hip_only : TargetUtil.Env :=
  TargetUtil.mkEnv None (Some "/opt/rocm").
Definition no_backend : TargetUtil.Env := TargetUtil.mkEnv None None.

Definition sample_hint : MatmulBench.Hint :=
  MatmulBench.mkHint [128; 256]%Z [64; 64]%Z [32]%Z
    (MatmulBench.InstanceOf MatmulBench.Rasterization2DRow 7).

(** A hint left at its default plan, an instance of [NoRasterization]. *)
Definition sample_hint_plain : MatmulBench.Hint :=
  MatmulBench.mkHint [64; 64]%Z [32; 32]%Z [16; 8]%Z
    (MatmulBench.InstanceOf MatmulBench.NoRasterization 3).

Definition sample_roller : MatmulBench.Roller :=
  Some (fun _ _ _ => Some [sample_hint; sample_hint_plain]).
End Samples.

(** What the target resolver accepts besides ["auto"]. *)
Module TargetSpec.
Import TargetUtil.

Definition accepted (target : TargetArg) : Prop :=
  (exists t, target = ArgTarget t)
  \/ target = ArgStr "cuda" \/ target = ArgStr "hip".
End TargetSpec.

(** The scopes that are open after a sequence of entries and exits. *)
Module ScopeSpec.
Import KernelLang.

(** [open] without its first entry for the object [s]. *)
Fixpoint remove_first (s : KernelLaunchFrame) (open : list KernelLaunchFrame)
  : list KernelLaunchFrame :=
  match open with
  | [] => []
  | t :: rest => if py_is t s then rest else t :: remove_first s rest
  end.

(** The scopes entered and not yet exited, the most recently entered
    first: an exit closes the most recent open entry of its scope. *)
Fixpoint not_yet_exited_from (open : list KernelLaunchFrame) (t : list event)
  : list KernelLaunchFrame :=
  match t with
  | [] => open
  | Enter s :: t' => not_yet_exited_from (s :: open) t'
  | Exit s :: t' => not_yet_exited_from (remove_first s open) t'
  end.

Definition not_yet_exited (t : list event) : list KernelLaunchFrame :=
  not_yet_exited_from [] t.
End ScopeSpec.

(** A stand-in for the tensor runtime.  It rejects the requests the runtime
    rejects: a uniform or normal fill of a tensor whose element type is not
    a floating-point type, and an integer draw whose range is empty or
    whose negative lower bound does not fit an unsigned or boolean element
    type.  A random draw is answered with one fixed value of its range. *)
Module TorchRuntime.
Import TensorUtil.
Local Open Scope Qc_scope.





End TorchRuntime.

(** The tensor generator, in the words of its description. *)
Module TensorSpec.
Import TensorUtil.
Local Open Scope Qc_scope.




End TensorSpec.

(** The tuning space, in the words of its description. *)
Module MatmulSpec.
Import MatmulBench.
Local Open Scope Z_scope.

(** A configuration drawn from the six candidate sets. *)
Definition in_candidate_sets (c : Config) : Prop :=
  block_M c ∈ [64; 128; 256]
  /\ block_N c ∈ [64; 128; 256]
  /\ block_K c ∈ [32; 64]
  /\ num_stages c ∈ [0; 1; 2; 3]
  /\ thread_num c ∈ [128; 256]
  /\ enable_rasteration c ∈ [true; false].

(** A hint from which a configuration can be derived: a block shape and
    a warp shape of two extents each, at least one reduction step, and a
    warp of non-zero area. *)
Definition well_formed (h : Hint) : Prop :=
  exists bm bn wm wn k ks,
    block h = [bm; bn] /\ warp h = [wm; wn] /\ rstep h = k :: ks
    /\ wm * wn <> 0.

(** The hint asks for rasterization: its plan is an instance of a plan
    class other than [NoRasterization].  A hint is created with an instance
    of [NoRasterization] as its plan. *)
Definition specifies_rasterization (h : Hint) : Prop :=
  exists cls id,
    rasterization_plan h = InstanceOf cls id /\ cls <> NoRasterization.

(** [c] is the configuration the loop body builds from hint [h]; the
    quotient is the integer quotient, and the flag is set unless the plan
    is the class [NoRasterization] itself. *)
Definition derived_from (h : Hint) (c : Config) : Prop :=
  exists bm bn wm wn k ks,
    block h = [bm; bn] /\ warp h = [wm; wn] /\ rstep h = k :: ks
    /\ block_M c = bm
    /\ block_N c = bn
    /\ block_K c = k
    /\ num_stages c = 0
    /\ thread_num c = (block_M c * block_N c) `div` (wm * wn) * 32
    /\ (enable_rasteration c = true
        <-> rasterization_plan h <> ClassObject NoRasterization).
End MatmulSpec.

(** * Properties *)

(** ** The kernel launch scope *)
Section KernelScope.
Import KernelLang.

Implicit Types (self s : KernelLaunchFrame) (st : FrameStack).

Lemma py_is_refl s : py_is s s = true.
Proof. unfold py_is. by rewrite bool_decide_eq_true. Qed.

Lemma top_snoc st s : top (st ++ [s]) = (Ok s, st ++ [s]).
Proof. unfold top. by rewrite last_snoc. Qed.

Lemma pop_snoc st s : pop (st ++ [s]) = (Ok s, st).
Proof. unfold pop. by rewrite last_snoc, removelast_last. Qed.

Lemma top_nil : top [] = (Raise (IndexError empty_msg), []).
Proof. reflexivity. Qed.

Lemma stack_cases st : st = [] \/ exists st' s, st = st' ++ [s].
Proof.
  destruct st as [|x l] using rev_ind; [by left | right; eauto].
Qed.

Lemma enter_stack self st : stack_after (enter self st) = st ++ [self].
Proof.
  unfold enter, bind, super_enter, push, ret, raise; simpl.
  case_bool_decide as Hlen; [|done].
  destruct (frames self) as [|f fs]; [discriminate Hlen | done].
Qed.

Lemma exit_snoc self st t :
  exit self (st ++ [t]) = (Ok tt, if py_is t self then st else st ++ [t]).
Proof.
  unfold exit, bind. rewrite top_snoc.
  destruct (py_is t self); simpl; [by rewrite pop_snoc | done].
Qed.

Lemma exit_nil self : exit self [] = (Raise (IndexError empty_msg), []).
Proof. reflexivity. Qed.

Lemma slice_to_neg_split {A} (k : nat) (l : list A) :
  l = slice_to_neg k l ++ slice_from_neg k l
  /\ length (slice_from_neg k l) = (length l `min` k)%nat.
Proof.
  unfold slice_to_neg, slice_from_neg. split.
  - by rewrite take_drop.
  - rewrite length_drop. lia.
Qed.

Lemma run_app t1 t2 st :
  run (t1 ++ t2) st =
  match run t1 st with
  | (Ok _, st') => run t2 st'
  | (Raise e, st') => (Raise e, st')
  end.
Proof.
  revert st. induction t1 as [|e t1 IH]; intros st; simpl.
  - done.
  - unfold bind.
    destruct (step e st) as [[u|err] st']; [apply IH | done].
Qed.

Lemma run_enter s t st : run (Enter s :: t) st = run t (st ++ [s]).
Proof.
  simpl.
  unfold enter, bind, super_enter, push, ret, raise; simpl.
  case_bool_decide as Hlen; [|done].
  destruct (frames s) as [|f fs]; [discriminate Hlen | done].
Qed.

Lemma run_nested body :
  nested body -> forall st, run body st = (Ok tt, st).
Proof.
  induction 1 as [|s body rest _ IHbody _ IHrest]; intros st; [done|].
  rewrite run_enter, run_app, IHbody. simpl.
  unfold bind at 1. rewrite exit_snoc, py_is_refl. apply IHrest.
Qed.

(** C1.  Entering a launch scope always returns.  With exactly 5 frames
    (one block frame followed by the 4 trailing frames) it returns the
    variable of frame 0 by itself; with any other number of frames it
    returns the list of the variables of all frames except the last 4, in
    frame order, which is the [blocks] property of the scope. *)
Theorem enter_return_value self st :
  exists r, outcome (enter self st) = Ok r /\
    match r with
    | SingleVar v =>
        length (frames self) = 5%nat
        /\ (exists f trailing,
              frames self = f :: trailing
              /\ length trailing = 4%nat /\ v = frame_var f)
        /\ blocks self = [v]
    | VarList vs =>
        length (frames self) <> 5%nat
        /\ (exists block_frames trailing,
              frames self = block_frames ++ trailing
              /\ length trailing = (length (frames self) `min` 4)%nat
              /\ vs = map frame_var block_frames)
        /\ vs = blocks self
        /\ length vs = (length (frames self) - 4)%nat
    end.
Proof.
  unfold outcome, enter, bind, super_enter, push, ret, raise, blocks; simpl.
  case_bool_decide as Hlen.
  - destruct (frames self) as [|f fs] eqn:Hfs; [discriminate Hlen|].
    simpl. eexists; split; [reflexivity|]. simpl in Hlen.
    repeat split; [done | exists f, fs; repeat split; lia |].
    unfold slice_to_neg. simpl length. rewrite Hlen. reflexivity.
  - eexists; split; [reflexivity|]. simpl.
    destruct (slice_to_neg_split 4 (frames self)) as [Hsplit Htail].
    repeat split; [done | | ].
    + exists (slice_to_neg 4 (frames self)), (slice_from_neg 4 (frames self)).
      repeat split; [exact Hsplit | exact Htail].
    + rewrite length_map. unfold slice_to_neg. rewrite length_take. lia.
Qed.

(** C2 as worded fails when exits come out of order: after entering the
    sample scope A, then B, and exiting A before B, no scope is left that
    was entered and not exited, yet A is still on the stack and [Current]
    returns it. *)
Lemma current_scope_after_misnested_exits :
  ScopeSpec.not_yet_exited
    [Enter Samples.scope_A; Enter Samples.scope_B;
     Exit Samples.scope_A; Exit Samples.scope_B] = []
  /\ run [Enter Samples.scope_A; Enter Samples.scope_B;
          Exit Samples.scope_A; Exit Samples.scope_B] initial_stack
     = (Ok tt, [Samples.scope_A])
  /\ Current [Samples.scope_A] = (Ok Samples.scope_A, [Samples.scope_A]).
Proof. repeat split. Qed.

(** C2, amended.  The scope stack is used last-in first-out.  Entering a scope
    pushes it and makes it the current scope.  Exiting a scope on a
    non-empty stack pops the top exactly when the top is that scope, and
    otherwise leaves the stack as it is.  After a scope is entered and a
    properly nested sequence of entries and exits has run inside it, that
    scope is current again; once it is exited too the stack is what it was
    before.  For scopes A then B entered on the empty stack: B is current,
    exiting B makes A current, exiting A leaves the stack empty. *)
Theorem scope_stack_lifo :
  (forall self st,
      stack_after (enter self st) = st ++ [self]
      /\ outcome (Current (stack_after (enter self st))) = Ok self)
  /\ (forall self st t,
        exit self (st ++ [t])
        = (Ok tt, if py_is t self then st else st ++ [t]))
  /\ (forall body, nested body -> forall s st,
        run (Enter s :: body) st = (Ok tt, st ++ [s])
        /\ outcome (Current (stack_after (run (Enter s :: body) st))) = Ok s
        /\ run (Enter s :: body ++ [Exit s]) st = (Ok tt, st))
  /\ (forall A B,
        let st2 := stack_after (run [Enter A; Enter B] initial_stack) in
        let st1 := stack_after (exit B st2) in
        let st0 := stack_after (exit A st1) in
        outcome (Current st2) = Ok B
        /\ outcome (exit B st2) = Ok tt
        /\ outcome (Current st1) = Ok A
        /\ outcome (exit A st1) = Ok tt
        /\ st0 = []).
Proof.
  split; [|split; [|split]].
  - intros self st. rewrite enter_stack. split; [done|].
    unfold Current. by rewrite top_snoc.
  - intros self st t. apply exit_snoc.
  - intros body Hbody s st.
    assert (run (Enter s :: body) st = (Ok tt, st ++ [s])) as Hrun
      by (rewrite run_enter; by apply run_nested).
    split; [exact Hrun | split].
    + rewrite Hrun. unfold Current, stack_after; simpl. by rewrite top_snoc.
    + change (Enter s :: body ++ [Exit s])
        with ((Enter s :: body) ++ [Exit s]).
      rewrite run_app, Hrun. simpl. unfold bind.
      change [s] with ([] ++ [s]). rewrite app_assoc.
      rewrite exit_snoc, py_is_refl. by rewrite app_nil_r.
  - intros A B. rewrite !run_enter. simpl.
    unfold ret, stack_after, outcome, Current; simpl.
    change [A; B] with ([A] ++ [B]).
    rewrite exit_snoc, py_is_refl. simpl.
    change [A] with ([] ++ [A]).
    rewrite exit_snoc, py_is_refl. done.
Qed.

Lemma scope_stack_lifo_witness :
  run (Enter Samples.scope_A :: [Enter Samples.scope_B; Exit Samples.scope_B]) []
  = (Ok tt, [] ++ [Samples.scope_A])
  /\ outcome (Current (stack_after
        (run (Enter Samples.scope_A
                :: [Enter Samples.scope_B; Exit Samples.scope_B]) [])))
     = Ok Samples.scope_A
  /\ run (Enter Samples.scope_A
            :: [Enter Samples.scope_B; Exit Samples.scope_B]
               ++ [Exit Samples.scope_A]) []
     = (Ok tt, []).
Proof.
  apply (proj1 (proj2 (proj2 scope_stack_lifo))
           [Enter Samples.scope_B; Exit Samples.scope_B]).
  apply (nested_scope Samples.scope_B [] []); constructor.
Defined.

(** C3.  [Current] returns the top of the stack when the stack is not
    empty; on the empty stack it raises [IndexError] and returns no
    value. *)
Theorem Current_empty_stack_raises :
  (forall st s, Current (st ++ [s]) = (Ok s, st ++ [s]))
  /\ Current initial_stack = (Raise (IndexError "FrameStack is empty"), []).
Proof. split; [intros st s; apply top_snoc | reflexivity]. Qed.

(** C10.  Exiting a scope raises [IndexError] exactly when the stack is
    empty, and completes exactly when the stack holds at least one
    scope. *)
Theorem exit_empty_stack_raises self st :
  (outcome (exit self st) = Raise (IndexError "FrameStack is empty")
   <-> st = [])
  /\ (outcome (exit self st) = Ok tt <-> st <> []).
Proof.
  destruct (stack_cases st) as [->|(st' & t & ->)].
  - rewrite exit_nil. unfold outcome; simpl. split; split; done.
  - rewrite exit_snoc. unfold outcome; simpl.
    split; split; try done.
    + intros H. by destruct st'.
    + intros _ H. by destruct st'.
Qed.

(** C9.  [Kernel] normalises [threads]: an integer [t] becomes
    [[t, 1, 1]]; a list or tuple of at most 3 integers is extended on the
    right with 1s to length 3; a value of any other type raises
    [ValueError]. *)
Theorem Kernel_threads_normalization blocks prelude :
  (forall t, result_map call_threads (Kernel blocks (ThreadsInt t) prelude)
             = Ok [t; 1%Z; 1%Z])
  /\ (forall l arg,
        (length l <= 3)%nat ->
        arg = ThreadsList l \/ arg = ThreadsTuple l ->
        result_map call_threads (Kernel blocks arg prelude)
        = Ok (l ++ replicate (3 - length l) 1%Z)
        /\ length (l ++ replicate (3 - length l) 1%Z) = 3%nat)
  /\ (forall type_name,
        Kernel blocks (ThreadsOther type_name) prelude
        = Raise (ValueError
                   "threads must be an integer or a list of integers")).
Proof.
  split; [|split].
  - intros t. reflexivity.
  - intros l arg Hlen Harg.
    assert (ones_times (3 - Z.of_nat (length l))
            = replicate (3 - length l) 1%Z) as Hones.
    { unfold ones_times. f_equal. lia. }
    split.
    + destruct Harg as [-> | ->]; unfold Kernel; simpl; by rewrite Hones.
    + rewrite length_app, length_replicate. lia.
  - intros type_name. reflexivity.
Qed.

Lemma Kernel_threads_normalization_witness :
  result_map call_threads
    (Kernel [8; 4]%Z (ThreadsList [64; 2]%Z) None)
  = Ok ([64; 2]%Z ++ replicate (3 - length [64; 2]%Z) 1%Z)
  /\ length ([64; 2]%Z ++ replicate (3 - length [64; 2]%Z) 1%Z) = 3%nat.
Proof.
  apply (proj1 (proj2 (Kernel_threads_normalization [8; 4]%Z None))
           [64; 2]%Z (ThreadsList [64; 2]%Z)).
  - simpl. lia.
  - left. reflexivity.
Defined.

(** The two sample scopes: one block dimension gives the variable by
    itself, two give a list; the thread extents 64, 2, 1 multiply to
    128. *)
Example enter_sample_scopes :
  outcome (enter Samples.scope_A initial_stack)
  = Ok (SingleVar (mkVar "bx"))
  /\ outcome (enter Samples.scope_B initial_stack)
     = Ok (VarList [mkVar "by"; mkVar "bx"])
  /\ get_thread_extent Samples.scope_B 0 = Ok 64%Z
  /\ get_thread_extent Samples.scope_B 1 = Ok 2%Z
  /\ get_thread_extent Samples.scope_B 2 = Ok 1%Z
  /\ get_num_threads Samples.scope_B = Ok 128%Z.
Proof. repeat split. Qed.

End KernelScope.

(** ** The target resolver *)
Section TargetResolver.
Import TargetUtil TargetSpec.

Lemma eq_str_false target s : target <> ArgStr s -> eq_str target s = false.
Proof.
  intros Hne. destruct target as [s'| |]; simpl; [|done|done].
  apply bool_decide_eq_false. congruence.
Qed.

Lemma accepted_test target :
  accepted target <->
  isinstance_Target target || in_strs target ["cuda"; "hip"] = true.
Proof.
  unfold accepted. destruct target as [s|t|r]; simpl.
  - rewrite !orb_true_iff, !bool_decide_eq_true. split.
    + intros [[t Ht]|[H|H]]; [discriminate Ht | | ];
        injection H as ->; auto.
    + intros [->|[->|H]]; [auto | auto | discriminate H].
  - split; [done | intros _; left; by exists t].
  - split; [|done]. intros [[t Ht]|[H|H]]; discriminate.
Qed.

(** C7.  On ["auto"] the resolver answers ["cuda"] whenever the CUDA probe
    succeeds, whatever the HIP probe says, ["hip"] when only the HIP probe
    succeeds, and raises [ValueError] when neither does.  On any other
    input it returns the input unchanged when that is a [Target] or one
    of ["cuda"], ["hip"], and raises [AssertionError] otherwise. *)
Theorem determine_target_cases env :
  (check_cuda_availability env = true ->
     determine_target env (ArgStr "auto") = Ok (ArgStr "cuda"))
  /\ (check_cuda_availability env = false ->
      check_hip_availability env = true ->
      determine_target env (ArgStr "auto") = Ok (ArgStr "hip"))
  /\ (check_cuda_availability env = false ->
      check_hip_availability env = false ->
      determine_target env (ArgStr "auto")
      = Raise (ValueError "No CUDA or HIP available on this system."))
  /\ (forall target, target <> ArgStr "auto" ->
      (accepted target -> determine_target env target = Ok target)
      /\ (~ accepted target ->
          determine_target env target
          = Raise (AssertionError (unsupported_msg target)))).
Proof.
  unfold determine_target. repeat split.
  - intros ->. reflexivity.
  - intros -> ->. reflexivity.
  - intros -> ->. reflexivity.
  - intros Hacc. rewrite eq_str_false by done.
    apply accepted_test in Hacc. by rewrite Hacc.
  - intros Hrej. rewrite eq_str_false by done.
    destruct (isinstance_Target target || in_strs target ["cuda"; "hip"])
      eqn:Htest; [|done].
    exfalso. apply Hrej. by apply accepted_test.
Qed.

Lemma determine_target_cases_witness :
  determine_target Samples.cuda_and_hip (ArgStr "auto") = Ok (ArgStr "cuda")
  /\ determine_target Samples.hip_only (ArgStr "auto") = Ok (ArgStr "hip")
  /\ determine_target Samples.no_backend (ArgStr "auto")
     = Raise (ValueError "No CUDA or HIP available on this system.")
  /\ determine_target Samples.no_backend (ArgTarget (mkTarget "llvm"))
     = Ok (ArgTarget (mkTarget "llvm"))
  /\ determine_target Samples.no_backend (ArgStr "opencl")
     = Raise (AssertionError "Target opencl is not supported").
Proof.
  split; [|split; [|split; [|split]]].
  - apply (proj1 (determine_target_cases Samples.cuda_and_hip)).
    reflexivity.
  - apply (proj1 (proj2 (determine_target_cases Samples.hip_only)));
      reflexivity.
  - apply (proj1 (proj2 (proj2 (determine_target_cases Samples.no_backend))));
      reflexivity.
  - apply (proj2 (proj2 (proj2 (determine_target_cases Samples.no_backend)))
             (ArgTarget (mkTarget "llvm"))); [discriminate|].
    left. exists (mkTarget "llvm"). reflexivity.
  - apply (proj2 (proj2 (proj2 (determine_target_cases Samples.no_backend)))
             (ArgStr "opencl")); [discriminate|].
    intros [[t Ht]|[H|H]]; discriminate.
Defined.

End TargetResolver.

(** ** The tuning space of the matmul benchmark *)
Section TuningSpace.
Import MatmulBench MatmulSpec.
Local Open Scope Z_scope.

Lemma elem_of_itertools_product {A B C D E F}
    (la : list A) (lb : list B) (lc : list C)
    (ld : list D) (le : list E) (lf : list F) a b c d e f :
  (a, b, c, d, e, f) ∈ itertools_product la lb lc ld le lf
  <-> a ∈ la /\ b ∈ lb /\ c ∈ lc /\ d ∈ ld /\ e ∈ le /\ f ∈ lf.
Proof.
  unfold itertools_product.
  repeat setoid_rewrite list_elem_of_bind.
  setoid_rewrite list_elem_of_singleton.
  split.
  - intros (a' & (b' & (c' & (d' & (e' & (f' & Heq & ?) & ?) & ?) & ?) & ?) & ?).
    by simplify_eq.
  - intros (? & ? & ? & ? & ? & ?).
    exists a; split; [|done]. exists b; split; [|done].
    exists c; split; [|done]. exists d; split; [|done].
    exists e; split; [|done]. exists f; split; done.
Qed.

Lemma length_bind_const {A B} (f : A -> list B) (l : list A) (n : nat) :
  (forall a, length (f a) = n) -> length (l ≫= f) = (length l * n)%nat.
Proof.
  intros Hf. induction l as [|a l IH]; [done|].
  rewrite bind_cons, length_app, Hf, IH. simpl. lia.
Qed.

Lemma length_itertools_product {A B C D E F}
    (la : list A) (lb : list B) (lc : list C)
    (ld : list D) (le : list E) (lf : list F) :
  length (itertools_product la lb lc ld le lf)
  = (length la * (length lb * (length lc
       * (length ld * (length le * (length lf * 1))))))%nat.
Proof.
  unfold itertools_product.
  repeat (apply length_bind_const; intros ?).
  reflexivity.
Qed.

(** C6.  Whatever [M], [N], [K] are, the brute-force path returns 288
    configurations, no two of them equal, and a configuration is among
    them exactly when each of its six fields is drawn from the candidate
    set of that field. *)
Theorem brute_force_configs_complete roller M N K :
  exists configs,
    get_configs roller M N K false = Ok configs
    /\ length configs = 288%nat
    /\ NoDup configs
    /\ forall c, c ∈ configs <-> in_candidate_sets c.
Proof.
  eexists. split; [reflexivity|]. split; [|split].
  - rewrite length_map, length_itertools_product. reflexivity.
  - apply (bool_decide_unpack _). vm_compute. exact I.
  - intros c. unfold in_candidate_sets.
    rewrite list_elem_of_fmap. split.
    + intros ([[[[[c0 c1] c2] c3] c4] c5] & -> & Hin).
      by apply elem_of_itertools_product in Hin.
    + intros Hc. destruct c as [c0 c1 c2 c3 c4 c5].
      exists (c0, c1, c2, c3, c4, c5). split; [done|].
      by apply elem_of_itertools_product.
Qed.

Lemma config_of_hint_derived h c :
  config_of_hint h = Ok c -> derived_from h c.
Proof.
  unfold config_of_hint, derived_from.
  destruct h as [[|bm [|bn [|? ?]]] [|wm [|wn [|? ?]]] [|k ks] plan];
    simpl; try discriminate.
  unfold floordiv. case_bool_decide as Hz; simpl; [discriminate|].
  intros [= <-]. exists bm, bn, wm, wn, k, ks. simpl.
  repeat split; try done.
  - by destruct plan as [[]|].
  - intros Hplan. by destruct plan as [[]|].
Qed.

Lemma config_of_hint_total h :
  well_formed h -> exists c, config_of_hint h = Ok c.
Proof.
  intros (bm & bn & wm & wn & k & ks & Hb & Hw & Hr & Hz).
  unfold config_of_hint. rewrite Hb, Hw, Hr. simpl.
  unfold floordiv. rewrite bool_decide_eq_false_2 by done. simpl. eauto.
Qed.

Lemma configs_of_hints_derived hints :
  forall configs,
    configs_of_hints hints = Ok configs -> Forall2 derived_from hints configs.
Proof.
  induction hints as [|h hints IH]; simpl; intros configs Hrun.
  - injection Hrun as <-. constructor.
  - destruct (config_of_hint h) as [c|e] eqn:Hc; simpl in Hrun; [|done].
    destruct (configs_of_hints hints) as [cs|e]; simpl in Hrun; [|done].
    injection Hrun as <-.
    constructor; [by apply config_of_hint_derived | by apply IH].
Qed.

Lemma configs_of_hints_total hints :
  Forall well_formed hints -> exists configs, configs_of_hints hints = Ok configs.
Proof.
  induction 1 as [|h hints Hh _ [cs IH]]; simpl; [eauto|].
  destruct (config_of_hint_total h Hh) as [c ->]. rewrite IH. simpl. eauto.
Qed.

(** C8.  On the hardware-guided path, when the external search returns
    hints that are all well formed, a configuration list is returned; and
    whenever a list is returned it holds one configuration per hint, in
    order, with [block_M] and [block_N] the hint's block shape, [block_K]
    its first reduction step, [num_stages] 0 and [thread_num] the integer
    quotient of [block_M * block_N] by [warp_M * warp_N] times 32.
    [enable_rasteration] is true unless the hint's plan is the class
    [NoRasterization] itself: a hint left at its default plan, an instance
    of [NoRasterization], asks for no rasterization and still gets
    [enable_rasteration] true. *)
Theorem roller_configs_derived get_hints M N K hints :
  get_hints M N K = Some hints ->
  (Forall well_formed hints ->
     exists configs,
       get_configs (Some get_hints) M N K true = Ok configs
       /\ Forall2 derived_from hints configs)
  /\ (forall configs,
       get_configs (Some get_hints) M N K true = Ok configs ->
       Forall2 derived_from hints configs
       /\ forall (i : nat) h c,
            hints !! i = Some h -> configs !! i = Some c ->
            (exists id, rasterization_plan h = InstanceOf NoRasterization id) ->
            ~ specifies_rasterization h /\ enable_rasteration c = true).
Proof.
  intros Hhints. unfold get_configs. rewrite Hhints. split.
  - intros Hwf. destruct (configs_of_hints_total hints Hwf) as [cs Hcs].
    exists cs. split; [done | by apply configs_of_hints_derived].
  - intros configs Hrun.
    pose proof (configs_of_hints_derived hints configs Hrun) as Hall.
    split; [exact Hall|]. intros i h c Hh Hc [id Hplan]. split.
    + intros (cls & id' & Hplan' & Hcls). congruence.
    + destruct (Forall2_lookup_lr _ _ _ _ _ _ Hall Hh Hc)
        as (? & ? & ? & ? & ? & ? & _ & _ & _ & _ & _ & _ & _ & _ & Hflag).
      apply Hflag. by rewrite Hplan.
Qed.

(** The sample hint left at its default plan gets the flag. *)
Example default_plan_hint_config :
  ~ specifies_rasterization Samples.sample_hint_plain
  /\ config_of_hint Samples.sample_hint_plain
     = Ok (mkConfig 64 64 16 0 128 true).
Proof.
  split; [|reflexivity].
  intros (cls & id & Hplan & Hcls). injection Hplan as <- _. done.
Qed.

Lemma roller_configs_derived_witness :
  exists configs,
    get_configs Samples.sample_roller 8192 8192 8192 true = Ok configs
    /\ Forall2 derived_from
         [Samples.sample_hint; Samples.sample_hint_plain] configs.
Proof.
  apply (proj1 (roller_configs_derived
                  (fun _ _ _ => Some [Samples.sample_hint; Samples.sample_hint_plain])
                  8192 8192 8192
                  [Samples.sample_hint; Samples.sample_hint_plain]
                  eq_refl)).
  repeat constructor.
  - exists 128, 256, 64, 64, 32, []. repeat split; lia.
  - exists 64, 64, 32, 32, 16, [8]. repeat split; lia.
Defined.

End TuningSpace.

(** ** The tensor generator *)
Section TensorSupply.
Import TensorUtil TensorSpec TorchRuntime.
Local Open Scope Qc_scope.





End TensorSupply.


(** ** Further properties of the frame stack and the launch scope *)
Section FrameStackAndExtents.
Import KernelLang.

Implicit Types (self s : KernelLaunchFrame) (st : FrameStack).

Lemma prefix_app_split {A} (p l1 l2 : list A) :
  p `prefix_of` l1 ++ l2 ->
  p `prefix_of` l1 \/ exists q, p = l1 ++ q /\ q `prefix_of` l2.
Proof.
  revert p. induction l1 as [|x l1 IH]; intros p Hp; simpl in Hp.
  - right. by exists p.
  - destruct p as [|y p]; [left; apply prefix_nil|].
    pose proof (prefix_cons_inv_1 _ _ _ _ Hp) as ->.
    apply prefix_cons_inv_2 in Hp.
    destruct (IH p Hp) as [Hl|(q & -> & Hq)].
    + left. by apply prefix_cons.
    + right. by exists q.
Qed.

(** Pushing and then popping gives back the pushed item and the stack as
    it was; pushing and then reading the top gives the pushed item and
    keeps it on the stack. *)
Theorem push_pop_round_trip item st :
  (push item >>; pop) st = (Ok item, st)
  /\ (push item >>; top) st = (Ok item, st ++ [item]).
Proof.
  unfold bind, push. by rewrite pop_snoc, top_snoc.
Qed.

(** [pop] either returns the last item pushed and leaves the stack one
    shorter, and then the stack was truthy and [top] returns the same item;
    or it raises [IndexError], and then the stack was empty and falsy, is
    left unchanged, and [top] raises the same error.  Neither ever returns
    a no-value result. *)
Theorem pop_outcomes st :
  match pop st with
  | (Ok item, st') =>
      st = st' ++ [item] /\ truthy st = true /\ len st = S (len st')
      /\ top st = (Ok item, st)
  | (Raise e, st') =>
      e = IndexError "FrameStack is empty" /\ st' = st /\ st = []
      /\ truthy st = false /\ len st = 0%nat /\ top st = (Raise e, st)
  end.
Proof.
  destruct (stack_cases st) as [->|(st' & t & ->)].
  - simpl. repeat split.
  - rewrite pop_snoc, top_snoc. unfold len. rewrite length_app. simpl.
    repeat split; [by destruct st' | lia].
Qed.

(** Exiting a scope never removes a scope other than itself: the stack is
    either left as it is, or loses exactly its top, and then that top is
    the exiting object. *)
Theorem exit_removes_only_self self st :
  stack_after (exit self st) = st
  \/ exists t, st = stack_after (exit self st) ++ [t]
               /\ obj_id t = obj_id self
               /\ outcome (exit self st) = Ok tt.
Proof.
  destruct (stack_cases st) as [->|(st' & t & ->)]; [by left|].
  rewrite exit_snoc. unfold stack_after, outcome; simpl.
  destruct (py_is t self) eqn:His; [|by left].
  right. exists t. repeat split.
  unfold py_is in His. by apply bool_decide_eq_true in His.
Qed.

(** Exits in the wrong order leave a scope behind: when [A] is entered,
    then [B], and [A] is exited before [B], neither exit raises, [A] stays
    on the stack after both exits and is still reported as current. *)
Theorem misnested_exit_leaves_scope A B st :
  obj_id A <> obj_id B ->
  run [Enter A; Enter B; Exit A; Exit B] st = (Ok tt, st ++ [A])
  /\ Current (st ++ [A]) = (Ok A, st ++ [A]).
Proof.
  intros Hdistinct. split; [|apply top_snoc].
  rewrite !run_enter. simpl. unfold bind.
  rewrite exit_snoc.
  assert (py_is B A = false) as ->.
  { unfold py_is. apply bool_decide_eq_false. congruence. }
  by rewrite exit_snoc, py_is_refl.
Qed.

Lemma misnested_exit_leaves_scope_witness :
  run [Enter Samples.scope_A; Enter Samples.scope_B;
       Exit Samples.scope_A; Exit Samples.scope_B] []
  = (Ok tt, [] ++ [Samples.scope_A])
  /\ Current ([] ++ [Samples.scope_A])
     = (Ok Samples.scope_A, [] ++ [Samples.scope_A]).
Proof.
  apply (misnested_exit_leaves_scope Samples.scope_A Samples.scope_B []).
  simpl. lia.
Defined.

(** Properly nested use never raises: every prefix of a properly nested
    sequence runs to completion from any stack, and the scopes that were
    on the stack before are still there, below whatever is open. *)
Theorem nested_prefix_never_raises t :
  nested t ->
  forall p st, p `prefix_of` t ->
    exists st', run p st = (Ok tt, st') /\ st `prefix_of` st'.
Proof.
  induction 1 as [|s body rest Hbody IHbody Hrest IHrest]; intros p st Hp.
  - apply prefix_nil_inv in Hp as ->. by exists st.
  - destruct p as [|e p]; [by exists st|].
    pose proof (prefix_cons_inv_1 _ _ _ _ Hp) as ->.
    apply prefix_cons_inv_2 in Hp. rewrite run_enter.
    apply prefix_app_split in Hp as [Hin|(q & -> & Hq)].
    + destruct (IHbody p (st ++ [s]) Hin) as (st' & Hrun & Hpre).
      exists st'. split; [done|].
      etrans; [|exact Hpre]. by apply prefix_app_r.
    + rewrite run_app, (run_nested body Hbody).
      destruct q as [|e q]; [exists (st ++ [s]); split; [done|by apply prefix_app_r]|].
      pose proof (prefix_cons_inv_1 _ _ _ _ Hq) as ->.
      apply prefix_cons_inv_2 in Hq. simpl. unfold bind at 1.
      rewrite exit_snoc, py_is_refl. by apply IHrest.
Qed.

Lemma nested_prefix_never_raises_witness :
  exists st',
    run [Enter Samples.scope_A; Enter Samples.scope_B] [] = (Ok tt, st')
    /\ [] `prefix_of` st'.
Proof.
  apply (nested_prefix_never_raises
           [Enter Samples.scope_A; Enter Samples.scope_B;
            Exit Samples.scope_B; Exit Samples.scope_A]).
  - apply (nested_scope Samples.scope_A
             [Enter Samples.scope_B; Exit Samples.scope_B] []);
      [apply (nested_scope Samples.scope_B [] []); constructor | constructor].
  - exists [Exit Samples.scope_B; Exit Samples.scope_A]. reflexivity.
Defined.

Lemma getitem_nonneg {A} (l : list A) (i : nat) x :
  l !! i = Some x -> getitem l (Z.of_nat i) = Ok x.
Proof.
  intros Hx. pose proof (lookup_lt_Some _ _ _ Hx) as Hlt.
  unfold getitem. rewrite bool_decide_eq_false_2 by lia.
  rewrite bool_decide_eq_false_2 by lia.
  by rewrite Nat2Z.id, Hx.
Qed.

Lemma getitem_from_end {A} (pre suf : list A) (d : nat) x :
  suf !! d = Some x ->
  getitem (pre ++ suf) (- Z.of_nat (length suf) + Z.of_nat d) = Ok x.
Proof.
  intros Hx. pose proof (lookup_lt_Some _ _ _ Hx) as Hlt.
  unfold getitem. rewrite length_app.
  rewrite bool_decide_eq_false_2 by lia.
  rewrite bool_decide_eq_true_2 by lia.
  replace (Z.to_nat (- Z.of_nat (length suf) + Z.of_nat d
                     + Z.of_nat (length pre + length suf)))
    with (length pre + d)%nat by lia.
  rewrite lookup_app_r by lia.
  replace (length pre + d - length pre)%nat with d by lia.
  by rewrite Hx.
Qed.

Lemma getitem_too_short {A} (l : list A) (i : Z) :
  (i < - Z.of_nat (length l))%Z ->
  getitem l i = Raise (IndexError "index out of range").
Proof.
  intros Hi. unfold getitem. by rewrite bool_decide_eq_true_2 by lia.
Qed.

Lemma thread_extent_trailing self block_frames trailing (d : nat) f :
  frames self = block_frames ++ trailing -> length trailing = 4%nat ->
  trailing !! d = Some f ->
  get_thread_extent self (Z.of_nat d) = Ok (frame_extent f).
Proof.
  intros Hframes Hlen Hf. unfold get_thread_extent. rewrite Hframes.
  change (-4)%Z with (- Z.of_nat 4)%Z. rewrite <- Hlen.
  by rewrite (getitem_from_end _ _ _ _ Hf).
Qed.

Lemma num_threads_of_layout self block_frames tx ty tz aux :
  frames self = block_frames ++ [tx; ty; tz; aux] ->
  get_num_threads self
  = Ok (frame_extent tx * frame_extent ty * frame_extent tz)%Z.
Proof.
  intros Hframes.
  pose proof (thread_extent_trailing self _ _ 0 tx Hframes eq_refl eq_refl)
    as Hx.
  pose proof (thread_extent_trailing self _ _ 1 ty Hframes eq_refl eq_refl)
    as Hy.
  pose proof (thread_extent_trailing self _ _ 2 tz Hframes eq_refl eq_refl)
    as Hz.
  change (Z.of_nat 0) with 0%Z in Hx. change (Z.of_nat 1) with 1%Z in Hy.
  change (Z.of_nat 2) with 2%Z in Hz.
  unfold get_num_threads. cbn [foldl]. rewrite Hx. cbn [result_map].
  rewrite Hy. cbn [result_map]. rewrite Hz. cbn [result_map].
  f_equal. lia.
Qed.

(** With the frames laid out as block frames followed by thread-x,
    thread-y, thread-z and the auxiliary frame, [get_num_threads] is the
    product of the three thread extents; the block frames and the
    auxiliary frame play no part. *)
Theorem get_num_threads_product self block_frames tx ty tz aux :
  frames self = block_frames ++ [tx; ty; tz; aux] ->
  get_num_threads self
  = Ok (frame_extent tx * frame_extent ty * frame_extent tz)%Z.
Proof. apply num_threads_of_layout. Qed.

Lemma get_num_threads_product_witness :
  get_num_threads Samples.scope_B
  = Ok (frame_extent (Samples.frame_of "tx" 64)
        * frame_extent (Samples.frame_of "ty" 2)
        * frame_extent (Samples.frame_of "tz" 1))%Z.
Proof.
  apply (get_num_threads_product Samples.scope_B
           [Samples.frame_of "by" 8; Samples.frame_of "bx" 4]
           (Samples.frame_of "tx" 64) (Samples.frame_of "ty" 2)
           (Samples.frame_of "tz" 1) (Samples.frame_of "aux" 1)).
  reflexivity.
Defined.

(** [get_num_threads] returns a number exactly when the scope has at least
    4 frames; with fewer it raises [IndexError]. *)
Theorem get_num_threads_needs_four_frames self :
  ((exists n, get_num_threads self = Ok n)
   <-> (4 <= length (frames self))%nat)
  /\ ((exists msg, get_num_threads self = Raise (IndexError msg))
      <-> (length (frames self) < 4)%nat).
Proof.
  destruct (decide (4 <= length (frames self))%nat) as [Hge|Hlt].
  - pose proof (take_drop (length (frames self) - 4) (frames self)) as Hsplit.
    assert (length (drop (length (frames self) - 4) (frames self)) = 4%nat)
      as Hlen by (rewrite length_drop; lia).
    destruct (drop (length (frames self) - 4) (frames self))
      as [|tx [|ty [|tz [|aux [|? ?]]]]]; try discriminate Hlen.
    rewrite (num_threads_of_layout self _ tx ty tz aux (eq_sym Hsplit)).
    split; split; try done; try lia; eauto.
    intros [msg Hmsg]. discriminate Hmsg.
  - assert (get_num_threads self = Raise (IndexError "index out of range"))
      as ->.
    { assert (get_thread_extent self 0
              = Raise (IndexError "index out of range")) as Hx.
      { unfold get_thread_extent. by rewrite getitem_too_short by lia. }
      unfold get_num_threads. cbn [foldl]. by rewrite Hx. }
    split; split; try done; try lia; eauto.
    intros [n Hn]. discriminate Hn.
Qed.

(** Extents are read by position only.  With the frames laid out as block
    frames followed by thread-x, thread-y, thread-z and the auxiliary
    frame, [get_block_extent] at a block position gives that block frame's
    extent, [get_thread_extent d] for [d] in 0, 1, 2 gives the extent of
    thread frame [d], and [get_block_extent] at one of the three positions
    just past the block frames does not fail: it gives the extent of the
    thread frame found there. *)
Theorem extents_by_position self block_frames tx ty tz aux :
  frames self = block_frames ++ [tx; ty; tz; aux] ->
  (forall (i : nat) f, block_frames !! i = Some f ->
     get_block_extent self (Z.of_nat i) = Ok (frame_extent f))
  /\ (forall (d : nat) f, [tx; ty; tz] !! d = Some f ->
        get_thread_extent self (Z.of_nat d) = Ok (frame_extent f)
        /\ get_block_extent self (Z.of_nat (length block_frames + d))
           = Ok (frame_extent f)).
Proof.
  intros Hframes. split.
  - intros i f Hf. unfold get_block_extent. rewrite Hframes.
    by rewrite (getitem_nonneg _ i f) by (by apply lookup_app_l_Some).
  - intros d f Hf.
    assert ([tx; ty; tz; aux] !! d = Some f) as Hf'
      by (by apply (lookup_app_l_Some [tx; ty; tz] [aux])).
    split; [by eapply thread_extent_trailing|].
    unfold get_block_extent. rewrite Hframes.
    rewrite (getitem_nonneg _ _ f); [done|].
    rewrite lookup_app_r by lia.
    by replace (length block_frames + d - length block_frames)%nat
      with d by lia.
Qed.

Lemma extents_by_position_witness :
  (forall (i : nat) f,
      [Samples.frame_of "bx" 8] !! i = Some f ->
      get_block_extent Samples.scope_A (Z.of_nat i) = Ok (frame_extent f))
  /\ (forall (d : nat) f,
        [Samples.frame_of "tx" 128; Samples.frame_of "ty" 1;
         Samples.frame_of "tz" 1] !! d = Some f ->
        get_thread_extent Samples.scope_A (Z.of_nat d) = Ok (frame_extent f)
        /\ get_block_extent Samples.scope_A
             (Z.of_nat (length [Samples.frame_of "bx" 8] + d))
           = Ok (frame_extent f)).
Proof.
  apply (extents_by_position Samples.scope_A
           [Samples.frame_of "bx" 8]
           (Samples.frame_of "tx" 128) (Samples.frame_of "ty" 1)
           (Samples.frame_of "tz" 1) (Samples.frame_of "aux" 1)).
  reflexivity.
Defined.

(** The normalisation of [threads] never rejects or shortens a list or a
    tuple: the given extents come first, what is added is 1s only, the
    normalised length is [max 3 (len l)], and a sequence of 3 or more
    extents is left as it is. *)
Theorem normalize_threads_sequence arg l :
  arg = ThreadsList l \/ arg = ThreadsTuple l ->
  exists threads,
    normalize_threads arg = Ok threads
    /\ l `prefix_of` threads
    /\ Forall (fun t => t = 1%Z) (drop (length l) threads)
    /\ length threads = (3 `max` length l)%nat
    /\ ((3 <= length l)%nat -> threads = l).
Proof.
  intros Harg. exists (l ++ ones_times (3 - Z.of_nat (length l))).
  split; [by destruct Harg as [-> | ->]|]. unfold ones_times.
  repeat split.
  - by apply prefix_app_r.
  - rewrite drop_app_length. by apply Forall_replicate.
  - rewrite length_app, length_replicate. lia.
  - intros Hlong.
    replace (Z.to_nat (3 - Z.of_nat (length l))) with 0%nat by lia.
    apply app_nil_r.
Qed.

Lemma normalize_threads_sequence_witness :
  exists threads,
    normalize_threads (ThreadsTuple [32; 2; 2; 2]%Z) = Ok threads
    /\ [32; 2; 2; 2]%Z `prefix_of` threads
    /\ Forall (fun t => t = 1%Z) (drop (length [32; 2; 2; 2]%Z) threads)
    /\ length threads = (3 `max` length [32; 2; 2; 2]%Z)%nat
    /\ ((3 <= length [32; 2; 2; 2]%Z)%nat -> threads = [32; 2; 2; 2]%Z).
Proof.
  apply (normalize_threads_sequence (ThreadsTuple [32; 2; 2; 2]%Z)
           [32; 2; 2; 2]%Z).
  right. reflexivity.
Defined.

End FrameStackAndExtents.

(** ** Further properties of the target resolver *)
Section TargetResolution.
Import TargetUtil TargetSpec.

(** A resolved target is final: whatever [determine_target] returns is
    never ["auto"], is a [Target] or one of ["cuda"], ["hip"], and resolves
    to itself again on any machine. *)
Theorem determine_target_idempotent env env' target resolved :
  determine_target env target = Ok resolved ->
  resolved <> ArgStr "auto"
  /\ accepted resolved
  /\ determine_target env' resolved = Ok resolved.
Proof.
  intros Hres.
  assert (resolved <> ArgStr "auto" /\ accepted resolved) as [Hne Hacc].
  { unfold determine_target in Hres.
    destruct (eq_str target "auto") eqn:Hauto.
    - destruct (check_cuda_availability env);
        [|destruct (check_hip_availability env); [|discriminate Hres]];
        injection Hres as <-; (split; [discriminate|]); unfold accepted; auto.
    - destruct (isinstance_Target target || in_strs target ["cuda"; "hip"])
        eqn:Htest; [|discriminate Hres].
      injection Hres as <-. split; [|by apply accepted_test].
      intros ->. discriminate Hauto. }
  repeat split; try done.
  unfold determine_target. rewrite eq_str_false by done.
  apply accepted_test in Hacc. by rewrite Hacc.
Qed.

Lemma determine_target_idempotent_witness :
  ArgStr "hip" <> ArgStr "auto"
  /\ accepted (ArgStr "hip")
  /\ determine_target Samples.no_backend (ArgStr "hip") = Ok (ArgStr "hip").
Proof.
  apply (determine_target_idempotent Samples.hip_only Samples.no_backend
           (ArgStr "auto") (ArgStr "hip")).
  reflexivity.
Defined.

(** Each error has one cause.  [ValueError] is raised only for ["auto"] on
    a machine where both probes fail; [AssertionError] only for an input
    other than ["auto"] that is neither a [Target] nor ["cuda"] nor
    ["hip"], and then on every machine alike. *)
Theorem determine_target_error_causes env target :
  (forall msg, determine_target env target = Raise (ValueError msg) ->
     target = ArgStr "auto"
     /\ check_cuda_availability env = false
     /\ check_hip_availability env = false)
  /\ (forall msg, determine_target env target = Raise (AssertionError msg) ->
        target <> ArgStr "auto" /\ ~ accepted target
        /\ forall env', determine_target env' target
                        = Raise (AssertionError msg)).
Proof.
  split; intros msg Hres; unfold determine_target in Hres.
  - destruct (eq_str target "auto") eqn:Hauto.
    + destruct (check_cuda_availability env); [discriminate Hres|].
      destruct (check_hip_availability env); [discriminate Hres|].
      destruct target as [s| |]; try discriminate Hauto.
      simpl in Hauto. apply bool_decide_eq_true in Hauto as ->. done.
    + destruct (isinstance_Target target || in_strs target ["cuda"; "hip"]);
        discriminate Hres.
  - destruct (eq_str target "auto") eqn:Hauto.
    + destruct (check_cuda_availability env); [discriminate Hres|].
      destruct (check_hip_availability env); discriminate Hres.
    + destruct (isinstance_Target target || in_strs target ["cuda"; "hip"])
        eqn:Htest; [discriminate Hres|].
      repeat split.
      * intros ->. discriminate Hauto.
      * intros Hacc%accepted_test. congruence.
      * intros env'. unfold determine_target. by rewrite Hauto, Htest.
Qed.

End TargetResolution.

(** ** Further properties of the tensor generator *)
Section TensorSupplyOutcomes.
Import TensorUtil TensorSpec TorchRuntime.
Local Open Scope Qc_scope.

(** For every member of the enumeration the generator makes one request
    to the runtime, for the requested shape and element type on the
    current device, and its outcome is the runtime's answer to that
    request, tensor or exception alike.  For any other value it raises
    [NotImplementedError] carrying the value and asks the runtime
    nothing. *)
Theorem get_tensor_supply_outcomes torch supply device tensor :
  match tensor_request supply device tensor with
  | Ok request =>
      (exists m, supply = Member m)
      /\ get_tensor_supply torch supply device tensor = torch request
      /\ gen_shape request = tt_shape tensor
      /\ gen_dtype request = tt_dtype tensor
      /\ gen_device request = device
  | Raise e =>
      (exists repr, supply = NotMember repr)
      /\ e = NotImplementedError supply
      /\ get_tensor_supply torch supply device tensor = Raise e
  end.
Proof.
  unfold get_tensor_supply. destruct tensor as [d shape].
  destruct supply as [m|repr]; [destruct m|]; destruct d; simpl; eauto 10.
Qed.

(** A generated tensor is filled with ones in two cases only: the
    distribution is [One], or the element type is [int8] and the
    distribution is [Uniform] or [Normal].  Here [g] is the request whose
    answer the generator returns. *)
Theorem get_tensor_supply_ones_iff supply device tensor g :
  tensor_request supply device tensor = Ok g ->
  (gen_fill g = ones
   <-> supply = Member One
       \/ (tt_dtype tensor = int8
           /\ (supply = Member Uniform \/ supply = Member Normal)))
  /\ (forall torch, get_tensor_supply torch supply device tensor = torch g).
Proof.
  intros Hreq. split.
  - revert Hreq. destruct tensor as [d shape].
    destruct supply as [m|repr]; [destruct m|]; destruct d; simpl;
      intros [= <-]; simpl; split; intros H;
      try discriminate H; auto;
      destruct H as [H|[Hd [H|H]]]; discriminate.
  - intros torch. unfold get_tensor_supply. by rewrite Hreq.
Qed.

Lemma get_tensor_supply_ones_iff_witness :
  (gen_fill (mkTensorGen ones [2; 3]%Z 0%nat int8) = ones
   <-> Member Normal = Member One
       \/ (tt_dtype (mkTensorType int8 [2; 3]%Z) = int8
           /\ (Member Normal = Member Uniform
               \/ Member Normal = Member Normal)))
  /\ (forall torch,
        get_tensor_supply torch (Member Normal) 0
          (mkTensorType int8 [2; 3]%Z)
        = torch (mkTensorGen ones [2; 3]%Z 0%nat int8)).
Proof.
  apply (get_tensor_supply_ones_iff (Member Normal) 0%nat
           (mkTensorType int8 [2; 3]%Z)).
  reflexivity.
Defined.

End TensorSupplyOutcomes.

(** ** Further properties of the tuning space *)
Section TuningSpaceOrderAndHints.
Import MatmulBench MatmulSpec.
Local Open Scope Z_scope.

Lemma config_of_hint_well_formed h c :
  config_of_hint h = Ok c -> well_formed h.
Proof.
  unfold config_of_hint, well_formed.
  destruct h as [[|bm [|bn [|? ?]]] [|wm [|wn [|? ?]]] [|k ks] plan];
    simpl; try discriminate.
  unfold floordiv. case_bool_decide as Hz; simpl; [discriminate|].
  intros _. by exists bm, bn, wm, wn, k, ks.
Qed.

Lemma configs_of_hints_well_formed hints :
  forall configs,
    configs_of_hints hints = Ok configs -> Forall well_formed hints.
Proof.
  induction hints as [|h hints IH]; simpl; intros configs Hrun;
    [constructor|].
  destruct (config_of_hint h) as [c|e] eqn:Hc; simpl in Hrun; [|done].
  destruct (configs_of_hints hints) as [cs|e]; simpl in Hrun; [|done].
  constructor; [by eapply config_of_hint_well_formed | by eapply IH].
Qed.

(** The hardware-guided path returns a configuration list exactly when
    every hint is well formed: two block extents, two warp extents, at
    least one reduction step and a warp of non-zero area.  An empty list
    of hints is not an error: it gives an empty list of configurations. *)
Theorem roller_path_returns_iff get_hints M N K hints :
  get_hints M N K = Some hints ->
  ((exists configs, get_configs (Some get_hints) M N K true = Ok configs)
   <-> Forall well_formed hints)
  /\ (hints = [] -> get_configs (Some get_hints) M N K true = Ok []).
Proof.
  intros Hhints. unfold get_configs. rewrite Hhints. split.
  - split.
    + intros [configs Hrun]. by eapply configs_of_hints_well_formed.
    + apply configs_of_hints_total.
  - intros ->. reflexivity.
Qed.

Lemma roller_path_returns_iff_witness :
  ((exists configs,
       get_configs (Some (fun _ _ _ => Some [])) 256 256 256 true = Ok configs)
   <-> Forall well_formed [])
  /\ (@nil Hint = [] ->
      get_configs (Some (fun _ _ _ => Some [])) 256 256 256 true = Ok []).
Proof.
  apply (roller_path_returns_iff (fun _ _ _ => Some []) 256 256 256 []).
  reflexivity.
Defined.

(** A configuration derived from a hint has a thread count that is a
    multiple of 32, and when the warp area divides the block area the
    thread count is exactly 32 threads per warp:
    [thread_num * warp area = 32 * block area]. *)
Theorem roller_thread_num_per_warp h c wm wn :
  config_of_hint h = Ok c ->
  warp h = [wm; wn] ->
  (32 | thread_num c)
  /\ ((wm * wn | block_M c * block_N c) ->
      thread_num c * (wm * wn) = 32 * (block_M c * block_N c)).
Proof.
  unfold config_of_hint.
  destruct h as [[|bm [|bn [|? ?]]] [|wm' [|wn' [|? ?]]] [|k ks] plan];
    simpl; try discriminate.
  unfold floordiv. case_bool_decide as Hz; simpl; [discriminate|].
  intros [= <-] [= <- <-]. simpl. split.
  - apply Z.divide_factor_r.
  - intros [q Hq]. rewrite Hq, Z.div_mul by done. lia.
Qed.

Lemma roller_thread_num_per_warp_witness :
  (32 | 256)
  /\ ((64 * 64 | 128 * 256) -> 256 * (64 * 64) = 32 * (128 * 256)).
Proof.
  apply (roller_thread_num_per_warp Samples.sample_hint
           (mkConfig 128 256 32 0 256 true) 64 64); reflexivity.
Defined.

(** The brute-force configurations come in the order of the nested loops,
    the last parameter varying fastest: the configuration at position [i]
    takes its fields from the candidate lists at the digits of [i] in the
    mixed radix 3, 3, 2, 4, 2, 2. *)
Theorem brute_force_order roller M N K (i : nat) :
  (i < 288)%nat ->
  result_map (fun configs => configs !! i) (get_configs roller M N K false)
  = Ok (Some {|
      block_M := nth (i / 96) candidates_block_M 0;
      block_N := nth (i / 32 mod 3) candidates_block_N 0;
      block_K := nth (i / 16 mod 2) candidates_block_K 0;
      num_stages := nth (i / 4 mod 4) candidates_num_stages 0;
      thread_num := nth (i / 2 mod 2) candidates_thread_num 0;
      enable_rasteration :=
        nth (i mod 2) candidates_enable_rasterization false |}).
Proof.
  intros Hi. unfold get_configs, result_map. do 2 f_equal.
  assert (Forall (fun i : nat =>
            match get_configs roller M N K false with
            | Ok configs =>
                configs !! i
                = Some {|
                    block_M := nth (i / 96) candidates_block_M 0;
                    block_N := nth (i / 32 mod 3) candidates_block_N 0;
                    block_K := nth (i / 16 mod 2) candidates_block_K 0;
                    num_stages := nth (i / 4 mod 4) candidates_num_stages 0;
                    thread_num := nth (i / 2 mod 2) candidates_thread_num 0;
                    enable_rasteration :=
                      nth (i mod 2) candidates_enable_rasterization false |}
            | Raise _ => False
            end) (seq 0 288)) as Hall.
  { apply (bool_decide_unpack _). vm_compute. exact I. }
  rewrite Forall_forall in Hall.
  apply (Hall i). apply elem_of_seq. lia.
Qed.

Lemma brute_force_order_witness :
  result_map (fun configs => configs !! 100%nat)
    (get_configs None 8192 8192 8192 false)
  = Ok (Some {|
      block_M := nth (100 / 96) candidates_block_M 0;
      block_N := nth (100 / 32 mod 3) candidates_block_N 0;
      block_K := nth (100 / 16 mod 2) candidates_block_K 0;
      num_stages := nth (100 / 4 mod 4) candidates_num_stages 0;
      thread_num := nth (100 / 2 mod 2) candidates_thread_num 0;
      enable_rasteration :=
        nth (100 mod 2) candidates_enable_rasterization false |}).
Proof.
  apply (brute_force_order None 8192 8192 8192 100). lia.
Defined.

End TuningSpaceOrderAndHints.
